(** * TP2 dashboard (app2.py): loader, filter and aggregation pipeline

    A shallow embedding of the data-transformation code of [app2.py]:
    the module-level schema check and coercions, the filtering prefix of
    [update_all] and the aggregates it computes from the filtered frame.

    Conventions of the embedding.
    - A data frame is the list of its rows, in row order, plus the flag
      telling whether the optional column ['Produit'] exists.
    - [Date_Transaction] is a [datetime64[ns]] value: nanoseconds since the
      epoch as a [Z], [None] for [NaT].  Every comparison with [NaT] is false.
    - [Montant] is a float column.  Amounts are idealised as exact rationals
      ([Q]); rounding of binary floating point is not modelled.
    - pandas primitives are modelled by what they return: [groupby] yields one
      entry per distinct key, keys ascending; [value_counts] counts by key in
      order of first appearance and then sorts by count, descending;
      [sort_values(ascending=False)] is taken to keep the input order of equal
      values (a stable sort); [astype(str)] turns a missing value into the
      text ["nan"] (object columns); [astype(int)] raises on an infinity;
      [read_excel] raises when a column named in [parse_dates] is absent.
    - The integer columns hold unbounded integers. *)

From Stdlib Require Import ZArith QArith Qround Qabs Lqa Lia OrdersEx.
From stdpp Require Import base decidable option list strings lexico gmap sorting.

Local Open Scope Z_scope.

(** ** Data model *)

(** One row of [df] after the module-level clean-up. *)
Record TransactionRecord := mkRecord {
  ID_Client : string;
  Date_Transaction : option Z;
  Montant : Q;
  Magasin : string;
  Categorie_Produit : string;
  Quantite : Z;
  Mode_Paiement : string;
  Satisfaction_Client : Z;
  Produit : option string
}.

(** The frame: rows and the presence of the column ['Produit']. *)
Record DataFrame := mkFrame {
  rows : list TransactionRecord;
  has_Produit : bool
}.

(** ** Filtering ([update_all], lines 199-209) *)

Module Filter.

(** [pd.Timedelta(days=1)] in nanoseconds. *)
Definition Timedelta_1day : Z := 86400 * 1000000000.

(** [pd.to_datetime] of a calendar date (days since the epoch): midnight. *)
Definition to_datetime (d : Z) : Z := d * Timedelta_1day.

(** [dff['Date_Transaction'] >= bound]; false on [NaT]. *)
Definition ts_ge (bound : Z) (r : TransactionRecord) : Prop :=
  match Date_Transaction r with
  | Some t => bound ≤ t
  | None => False
  end.

(** [dff['Date_Transaction'] <= bound]; false on [NaT]. *)
Definition ts_le (bound : Z) (r : TransactionRecord) : Prop :=
  match Date_Transaction r with
  | Some t => t ≤ bound
  | None => False
  end.

#[export] Instance ts_ge_dec b r : Decision (ts_ge b r).
Proof. unfold ts_ge. destruct (Date_Transaction r); apply _. Defined.

#[export] Instance ts_le_dec b r : Decision (ts_le b r).
Proof. unfold ts_le. destruct (Date_Transaction r); apply _. Defined.

(** The arguments of the callback.  A date is [None] when the picker is
    cleared; a drop-down value is [None] or a list, and both [None] and the
    empty list are falsy. *)
Record FilterSpec := mkSpec {
  start_date : option Z;
  end_date : option Z;
  stores : option (list string);
  cats : option (list string);
  pays : option (list string)
}.

(** [if start_date: dff = dff[dff['Date_Transaction'] >= ...]] *)
Definition filter_start (sd : option Z) (dff : list TransactionRecord) :=
  match sd with
  | Some d => filter (ts_ge (to_datetime d)) dff
  | None => dff
  end.

(** [if end_date: dff = dff[dff['Date_Transaction'] <= ... + Timedelta(days=1)]] *)
Definition filter_end (ed : option Z) (dff : list TransactionRecord) :=
  match ed with
  | Some d => filter (ts_le (to_datetime d + Timedelta_1day)) dff
  | None => dff
  end.

(** [if values: dff = dff[dff[col].isin(values)]] *)
Definition filter_isin (col : TransactionRecord → string)
    (values : option (list string)) (dff : list TransactionRecord) :=
  match values with
  | Some (v :: vs) => filter (λ r, col r ∈ v :: vs) dff
  | _ => dff
  end.

(** The five steps in the order of the source. *)
Definition filter_rows (s : FilterSpec) (dff : list TransactionRecord) :=
  filter_isin Mode_Paiement (pays s)
    (filter_isin Categorie_Produit (cats s)
      (filter_isin Magasin (stores s)
        (filter_end (end_date s)
          (filter_start (start_date s) dff)))).

(** [dff = df.copy()] followed by the filtering: columns are kept. *)
Definition apply_filter (s : FilterSpec) (df : DataFrame) : DataFrame :=
  mkFrame (filter_rows s (rows df)) (has_Produit df).

(** The row-wise reading of the five steps: what each of them asks of a
    row, and their conjunction. *)
Definition start_ok (sd : option Z) (r : TransactionRecord) : Prop :=
  match sd with
  | Some d => ts_ge (to_datetime d) r
  | None => True
  end.

Definition end_ok (ed : option Z) (r : TransactionRecord) : Prop :=
  match ed with
  | Some d => ts_le (to_datetime d + Timedelta_1day) r
  | None => True
  end.

Definition isin_ok (col : TransactionRecord → string)
    (values : option (list string)) (r : TransactionRecord) : Prop :=
  match values with
  | Some (v :: vs) => col r ∈ v :: vs
  | _ => True
  end.

Definition passes (s : FilterSpec) (r : TransactionRecord) : Prop :=
  start_ok (start_date s) r ∧ end_ok (end_date s) r ∧
  isin_ok Magasin (stores s) r ∧ isin_ok Categorie_Produit (cats s) r ∧
  isin_ok Mode_Paiement (pays s) r.

#[export] Instance start_ok_dec sd r : Decision (start_ok sd r).
Proof. destruct sd; simpl; apply _. Defined.

#[export] Instance end_ok_dec ed r : Decision (end_ok ed r).
Proof. destruct ed; simpl; apply _. Defined.

#[export] Instance isin_ok_dec col values r : Decision (isin_ok col values r).
Proof. destruct values as [[|v vs]|]; simpl; apply _. Defined.

#[export] Instance passes_dec s r : Decision (passes s r).
Proof. unfold passes. apply _. Defined.

(** Specs that constrain one or two of the categorical columns only. *)
Definition only_stores (A : list string) : FilterSpec :=
  mkSpec None None (Some A) None None.
Definition only_cats (B : list string) : FilterSpec :=
  mkSpec None None None (Some B) None.
Definition stores_and_cats (A B : list string) : FilterSpec :=
  mkSpec None None (Some A) (Some B) None.

(** A drop-down value that is [None] or the empty list. *)
Definition falsy (values : option (list string)) : Prop :=
  values = None ∨ values = Some [].

End Filter.

(** ** Orders on keys and values *)

(** Python compares [str] values by code point; on the byte strings of the
    embedding this is the lexicographic order of [String_as_OT]. *)
#[export] Instance string_lexico : Lexico string :=
  λ s1 s2, OrdersEx.String_as_OT.compare s1 s2 = Lt.

#[export] Instance string_lexico_po : StrictOrder (@lexico string _).
Proof. exact OrdersEx.String_as_OT.lt_strorder. Qed.

#[export] Instance string_lexico_trichotomy : TrichotomyT (@lexico string _).
Proof.
  intros s1 s2. unfold lexico, string_lexico.
  destruct (OrdersEx.String_as_OT.compare s1 s2) eqn:E.
  - left; right. destruct (OrdersEx.String_as_OT.compare_spec s1 s2); congruence.
  - left; left. reflexivity.
  - right. destruct (OrdersEx.String_as_OT.compare_spec s1 s2); congruence.
Defined.

#[export] Instance Qle_dec : RelDecision Qle.
Proof. intros x y. unfold Qle. apply _. Defined.

#[export] Instance Qlt_dec : RelDecision Qlt.
Proof. intros x y. unfold Qlt. apply _. Defined.

#[export] Instance Qle_total : Total Qle.
Proof. intros x y. destruct (Qlt_le_dec x y); [left|right]; lra. Qed.

#[export] Instance Qle_transitive : Transitive Qle.
Proof. exact Qle_trans. Qed.

(** ** pandas primitives *)

Module Pandas.

Section Keys.
Context {K : Type} `{Lexico K, !StrictOrder (@lexico K _),
                     !TrichotomyT (@lexico K _), !EqDecision K}.

(** Insertion of a key into an ascending list without duplicates. *)
Fixpoint insert_key (k : K) (ks : list K) : list K :=
  match ks with
  | [] => [k]
  | k' :: ks' =>
      match trichotomyT lexico k k' with
      | inleft (left _) => k :: ks
      | inleft (right _) => ks
      | inright _ => k' :: insert_key k ks'
      end
  end.

(** The group keys of a [groupby] (default [sort=True]): the distinct values,
    ascending. *)
Definition sorted_keys (l : list K) : list K := foldr insert_key [] l.

(** [Series.unique()], also the key order of [value_counts] before it sorts:
    the distinct values in order of first appearance. *)
Fixpoint unique (l : list K) : list K :=
  match l with
  | [] => []
  | x :: l' => x :: filter (λ y, y ≠ x) (unique l')
  end.


Context {R : Type}.

(** [dff.groupby(key)]: one group per key, keys ascending, rows of a group in
    row order. *)
Definition groupby (key : R → K) (dff : list R) : list (K * list R) :=
  (λ k, (k, filter (λ r, key r = k) dff)) <$> sorted_keys (key <$> dff).

(** [groupby] on a column that may hold missing values: rows without a key
    belong to no group (default [dropna=True]). *)
Definition groupby_dropna (key : R → option K) (dff : list R)
    : list (K * list R) :=
  (λ k, (k, filter (λ r, key r = Some k) dff)) <$> sorted_keys (omap key dff).

(** Aggregate every group. *)
Definition agg {V : Type} (f : list R → V) (g : list (K * list R))
    : list (K * V) :=
  (λ kg, (kg.1, f kg.2)) <$> g.

(** [dff[col].value_counts(sort=False)]: counts by key, keys in order of
    first appearance. *)
Definition counts_by_appearance (col : R → K) (dff : list R) : list (K * Z) :=
  (λ k, (k, Z.of_nat (length (filter (λ r, col r = k) dff))))
    <$> unique (col <$> dff).

(** [Series.sort_index()]: ascending by key, equal keys in input order. *)
Fixpoint insert_index {V : Type} (x : K * V) (s : list (K * V)) : list (K * V) :=
  match s with
  | [] => [x]
  | y :: s' =>
      match trichotomyT lexico y.1 x.1 with
      | inright _ => x :: s
      | _ => y :: insert_index x s'
      end
  end.

Definition sort_index {V : Type} (s : list (K * V)) : list (K * V) :=
  foldl (λ acc x, insert_index x acc) [] s.

End Keys.

Section Values.
Context {K V : Type} (le : relation V) `{!RelDecision le}.

(** Insertion for the descending sort: [x] comes from earlier in the input
    than everything in [s], and is put in front of the first entry whose value
    does not exceed its own. *)
Fixpoint insert_desc (x : K * V) (s : list (K * V)) : list (K * V) :=
  match s with
  | [] => [x]
  | y :: s' =>
      if decide (le y.2 x.2) then x :: s else y :: insert_desc x s'
  end.

(** [Series.sort_values(ascending=False)]: descending by value, equal values
    in input order. *)
Definition sort_values_desc (s : list (K * V)) : list (K * V) :=
  foldr insert_desc [] s.


(** [Series.idxmax()]: the label of the first occurrence of the maximum. *)
Fixpoint idxmax (s : list (K * V)) : option (K * V) :=
  match s with
  | [] => None
  | x :: s' =>
      match idxmax s' with
      | None => Some x
      | Some m => if decide (le m.2 x.2) then Some x else Some m
      end
  end.

End Values.

(** Column reductions. *)
Definition sum_Q (l : list Q) : Q := foldr Qplus 0%Q l.
Definition sum_Z (l : list Z) : Z := foldr Z.add 0 l.
Definition len {A} (l : list A) : Z := Z.of_nat (length l).
Definition mean_Q (l : list Q) : Q := (sum_Q l / inject_Z (len l))%Q.

(** [numpy.rint]: nearest integer, halves to the even neighbour. *)
Definition rint (x : Q) : Z :=
  let f := Qfloor x in
  let d := (x - inject_Z f)%Q in
  if decide (d < 1 # 2)%Q then f
  else if decide (1 # 2 < d)%Q then f + 1
  else if Z.even f then f else f + 1.

(** [Series.round(2)]. *)
Definition round2 (x : Q) : Q := (inject_Z (rint (x * 100)) / 100)%Q.

End Pandas.

(** ** Aggregation ([update_all], lines 211-324) *)

Module Agg.
Import Pandas.

(** [dff['Date_Transaction'].dt.date]: the calendar day, missing on [NaT]. *)
Definition Date_only (r : TransactionRecord) : option Z :=
  (λ t, t / Filter.Timedelta_1day) <$> Date_Transaction r.

Definition col_sum_Montant (g : list TransactionRecord) : Q :=
  sum_Q (Montant <$> g).
Definition col_mean_Montant (g : list TransactionRecord) : Q :=
  mean_Q (Montant <$> g).
Definition col_sum_Quantite (g : list TransactionRecord) : Z :=
  sum_Z (Quantite <$> g).
Definition col_mean_Satisfaction (g : list TransactionRecord) : Q :=
  mean_Q ((λ r, inject_Z (Satisfaction_Client r)) <$> g).

(** One row of the store table. *)
Record StoreRow := mkStoreRow {
  sr_Magasin : string;
  Ventes_Totales : Q;
  Nb_Transactions : Z
}.

(** One row of the satisfaction table. *)
Record SatRow := mkSatRow {
  score : Z;
  count : Z;
  pct : Q
}.

(** One row of a top-5 table. *)
Record TopRow := mkTopRow {
  Rank : Z;
  tr_Produit : string;
  tr_Quantite : Z
}.

(** What the callback puts in the top-products area: the tables, one per
    category, or one of the two messages. *)
Inductive TopProducts :=
| ProductTables (tables : list (string * list TopRow))
| NoProductData
| ProductColumnAbsent.

(** [top_prod['Rank'] = range(1, len(top_prod)+1)] *)
Definition add_rank (top_prod : list (string * Z)) : list TopRow :=
  zip_with (λ i pq, mkTopRow i pq.1 pq.2)
    (seqZ 1 (len top_prod)) top_prod.

(** Line 278, up to [sort_values]: the product sums of the rows [sub] of a
    category, best first. *)
Definition ranking (sub : list TransactionRecord) : list (string * Z) :=
  sort_values_desc Z.le (agg col_sum_Quantite (groupby_dropna Produit sub)).

(** Line 278, [.head(5)]: the five best. *)
Definition top_prod (sub : list TransactionRecord) : list (string * Z) :=
  take 5 (ranking sub).

(** Lines 276-289: the loop over the categories, which skips a category
    whose table is empty. *)
Definition top_tables (dff : list TransactionRecord)
    : list (string * list TopRow) :=
  omap (λ cat,
          let sub := filter (λ r, Categorie_Produit r = cat) dff in
          match top_prod sub with
          | [] => None
          | tp => Some (cat, add_rank tp)
          end)
       (sorted_keys (Categorie_Produit <$> dff)).

(** Lines 274-293. *)
Definition top_products_children (dff : DataFrame) : TopProducts :=
  if has_Produit dff then
    match top_tables (rows dff) with
    | [] => NoProductData
    | ts => ProductTables ts
    end
  else ProductColumnAbsent.




(** [dff[col].value_counts()] *)
Definition value_counts {K} `{!EqDecision K}
    (col : TransactionRecord → K) (dff : list TransactionRecord) : list (K * Z) :=
  sort_values_desc Z.le (counts_by_appearance col dff).

(** Line 320: the score counts, ascending by score. *)
Definition sat_dist (dff : list TransactionRecord) : list (Z * Z) :=
  sort_index (value_counts Satisfaction_Client dff).

(** Lines 321-324: the satisfaction table. *)
Definition sat_table_data (dff : list TransactionRecord) : list SatRow :=
  let total := match sat_dist dff with
               | [] => 1
               | _ => sum_Z (snd <$> sat_dist dff)
               end in
  (λ sc, mkSatRow sc.1 sc.2
           (round2 (inject_Z sc.2 / inject_Z total * 100)%Q)) <$> sat_dist dff.

(** Lines 302-303: the most used payment mode and its share in percent. *)
Definition top_payment (pay_counts : list (string * Z)) : option (string * Q) :=
  (λ m, (m.1, (inject_Z m.2 / inject_Z (sum_Z (snd <$> pay_counts)) * 100)%Q))
    <$> idxmax Z.le pay_counts.

(** The data behind the fifteen outputs of the callback. *)
Record ViewBundle := mkBundle {
  total_ventes : Q;
  nb_transactions : Z;
  vente_moyenne : Q;
  satisfaction_moyenne : Q;
  daily : list (Z * Q);
  sales_by_cat : list (string * Q);
  sales_store : list (string * Q);
  avg_store : list (string * Q);
  store_table_data : list StoreRow;
  qty_cat : list (string * Z);
  stacked : list ((string * string) * Q);
  top_products : TopProducts;
  pay_counts : list (string * Z);
  top_mode : option (string * Q);
  sat_store : list (string * Q);
  sat_cat : list (string * Q);
  sat_table : list SatRow
}.

(** The aggregates of [update_all] on the filtered frame [dff]. *)
Definition aggregate (dff : DataFrame) : ViewBundle :=
  let d := rows dff in
  let n := len d in
  let pc := value_counts Mode_Paiement d in
  {| total_ventes := col_sum_Montant d;
     nb_transactions := n;
     vente_moyenne := if decide (0 < n) then col_mean_Montant d else 0%Q;
     satisfaction_moyenne :=
       if decide (0 < n) then col_mean_Satisfaction d else 0%Q;
     daily := agg col_sum_Montant (groupby_dropna Date_only d);
     sales_by_cat :=
       sort_values_desc Qle (agg col_sum_Montant (groupby Categorie_Produit d));
     sales_store :=
       sort_values_desc Qle (agg col_sum_Montant (groupby Magasin d));
     avg_store :=
       sort_values_desc Qle (agg col_mean_Montant (groupby Magasin d));
     store_table_data :=
       (λ kg, mkStoreRow kg.1 (col_sum_Montant kg.2) (len kg.2))
         <$> groupby Magasin d;
     qty_cat :=
       sort_values_desc Z.le (agg col_sum_Quantite (groupby Categorie_Produit d));
     stacked :=
       agg col_sum_Montant
         (groupby (λ r, (Categorie_Produit r, Magasin r)) d);
     top_products := top_products_children dff;
     pay_counts := pc;
     top_mode := top_payment pc;
     sat_store :=
       sort_values_desc Qle (agg col_mean_Satisfaction (groupby Magasin d));
     sat_cat :=
       sort_values_desc Qle
         (agg col_mean_Satisfaction (groupby Categorie_Produit d));
     sat_table := sat_table_data d |}.

(** [update_all]: filter, then aggregate. *)
Definition update_all (s : Filter.FilterSpec) (df : DataFrame) : ViewBundle :=
  aggregate (Filter.apply_filter s df).

End Agg.

(** ** Loading (module level, lines 17-45) *)

Module Loader.

(** *** Schema check (lines 26-31) *)

Definition expected_cols : gset string :=
  list_to_set ["ID_Client"; "Date_Transaction"; "Montant"; "Magasin";
               "Categorie_Produit"; "Quantite"; "Mode_Paiement";
               "Satisfaction_Client"].

(** What [sys.exit] is called with: the set [missing] and
    [sorted(expected_cols)], the two values the message prints. *)
Record SchemaExit := mkSchemaExit {
  missing : gset string;
  expected_sorted : list string
}.

(** [missing = expected_cols - set(df.columns)] *)
Definition missing_cols (columns : list string) : gset string :=
  expected_cols ∖ list_to_set columns.

(** Lines 28-31: [None] when the script goes on, otherwise the exit. *)
Definition check_columns (columns : list string) : option SchemaExit :=
  let m := missing_cols columns in
  if decide (m = ∅) then None
  else Some (mkSchemaExit m (Pandas.sorted_keys (elements expected_cols))).

(** How the script gets to the conversions, or does not. *)
Inductive Startup :=
| SourceNotFound
| ParseDatesValueError
| SchemaError (e : SchemaExit)
| ColumnsOk.

(** Lines 17-31 on a sheet given by its column names, [None] when the file
    does not exist.  Line 23 asks [read_excel] to parse ['Date_Transaction']
    as dates; the reader validates the names in [parse_dates] against the
    header and raises [ValueError] ("Missing column provided to
    'parse_dates'") when one is absent, before a frame is returned. *)
Definition startup (sheet : option (list string)) : Startup :=
  match sheet with
  | None => SourceNotFound
  | Some columns =>
      if decide ("Date_Transaction" ∈ columns) then
        match check_columns columns with
        | Some e => SchemaError e
        | None => ColumnsOk
        end
      else ParseDatesValueError
  end.

(** *** Coercions (lines 34-40) *)

(** A cell as [read_excel] delivers it in an object column: empty ([NaN]),
    a number, or text. *)
Inductive Cell :=
| CNaN
| CNum (x : Q)
| CStr (s : string).

(** A float that is not [NaN]. *)
Inductive Float :=
| Fin (x : Q)
| Inf (negative : bool).

Inductive Exception :=
| IntCastingNaNError.

(** Result of a computation that may raise. *)
Inductive Raises (A : Type) :=
| Ok (a : A)
| Raise (e : Exception).
Arguments Ok {A} a.
Arguments Raise {A} e.

#[export] Instance Raises_ret : MRet Raises := λ A a, Ok a.

#[export] Instance Raises_bind : MBind Raises := λ A B f m,
  match m with
  | Ok a => f a
  | Raise e => Raise e
  end.

(** [Series.fillna(default)] on one value; [None] is [NaN]. *)
Definition fillna {A} (default : A) (v : option A) : A :=
  match v with
  | Some a => a
  | None => default
  end.

(** Truncation toward zero, the float-to-int cast. *)
Definition trunc (x : Q) : Z := Z.quot (Qnum x) (Z.pos (Qden x)).

(** [Series.astype(int)] on one float: a non-finite value raises.  The column
    holds no [NaN] here, [fillna] ran before.  Integers are unbounded in the
    embedding. *)
Definition astype_int (x : Float) : Raises Z :=
  match x with
  | Fin q => Ok (trunc q)
  | Inf _ => Raise IntCastingNaNError
  end.

(** A row of the sheet, and the row after the conversions. *)
Record RawRow := mkRaw {
  raw_ID_Client : Cell;
  raw_Montant : Cell;
  raw_Magasin : Cell;
  raw_Categorie_Produit : Cell;
  raw_Quantite : Cell;
  raw_Mode_Paiement : Cell;
  raw_Satisfaction_Client : Cell
}.

Record CleanRow := mkClean {
  c_ID_Client : string;
  c_Montant : Float;
  c_Magasin : string;
  c_Categorie_Produit : string;
  c_Quantite : Z;
  c_Mode_Paiement : string;
  c_Satisfaction_Client : Z
}.

Section Coercions.

(** The two conversions between text and numbers that pandas and Python
    supply: the parser behind [pd.to_numeric] ([None] when the text is not a
    number or spells [NaN]) and [str] of a number. *)
Variable floatify : string → option Float.
Variable str_of_num : Q → string.

(** [pd.to_numeric(..., errors='coerce')] on one cell; [None] is [NaN]. *)
Definition to_numeric_coerce (c : Cell) : option Float :=
  match c with
  | CNaN => None
  | CNum x => Some (Fin x)
  | CStr s => floatify s
  end.

(** [Series.astype(str)] on one cell: every value is replaced by its [str],
    the missing value by the text of [float('nan')].  The result holds no
    missing value. *)
Definition astype_str (c : Cell) : option string :=
  match c with
  | CNaN => Some "nan"
  | CNum x => Some (str_of_num x)
  | CStr s => Some s
  end.

(** A cell that [to_numeric] reads as an infinity. *)
Definition reads_infinite (c : Cell) : Prop :=
  ∃ neg, to_numeric_coerce c = Some (Inf neg).

(** Line 34. *)
Definition clean_Montant (c : Cell) : Float :=
  fillna (Fin 0) (to_numeric_coerce c).

(** Lines 35-38. *)
Definition clean_str (c : Cell) : string :=
  fillna "" (astype_str c).

(** Lines 39-40. *)
Definition clean_int (c : Cell) : Raises Z :=
  astype_int (fillna (Fin 0) (to_numeric_coerce c)).

(** Lines 34-40 on one row.  The source converts column by column; the only
    exception is that of [astype(int)], so the outcome read row by row is the
    same. *)
Definition clean_row (r : RawRow) : Raises CleanRow :=
  q ← clean_int (raw_Quantite r);
  s ← clean_int (raw_Satisfaction_Client r);
  mret (mkClean (clean_str (raw_ID_Client r))
              (clean_Montant (raw_Montant r))
              (clean_str (raw_Magasin r))
              (clean_str (raw_Categorie_Produit r))
              q
              (clean_str (raw_Mode_Paiement r))
              s).

Definition clean (df : list RawRow) : Raises (list CleanRow) :=
  mapM clean_row df.

End Coercions.

(** A small instance of the parser: it knows two spellings of infinity and
    two one-digit integers. *)
Definition floatify_small (s : string) : option Float :=
  if decide (s = "inf") then Some (Inf false)
  else if decide (s = "-inf") then Some (Inf true)
  else if decide (s = "0") then Some (Fin 0)
  else if decide (s = "7") then Some (Fin 7)
  else None.

End Loader.

(** ** Filter options of the layout (lines 55-60) *)

Module Layout.
Import Pandas.

Section Sorted.
Context {K : Type} `{Lexico K, !TrichotomyT (@lexico K _)}.

(** Insertion for [sorted]: [x] comes from earlier in the input than
    everything in [l] and stays ahead of the values equal to it. *)
Fixpoint insert_sorted (x : K) (l : list K) : list K :=
  match l with
  | [] => [x]
  | y :: l' =>
      match trichotomyT lexico y x with
      | inleft (left _) => y :: insert_sorted x l'
      | _ => x :: l
      end
  end.

(** Python's [sorted]: ascending, duplicates kept. *)
Definition sorted (l : list K) : list K := foldr insert_sorted [] l.

End Sorted.

(** [[{'label': s, 'value': s} for s in sorted(df[col].unique())]]: the
    options of a drop-down, as (label, value) pairs. *)
Definition options (col : TransactionRecord → string)
    (df : list TransactionRecord) : list (string * string) :=
  (λ s, (s, s)) <$> sorted (unique (col <$> df)).

(** [Series.min()] and [Series.max()] of the timestamps, [NaT] skipped;
    [None] when there is no timestamp. *)
Definition ts_min (l : list Z) : option Z :=
  foldr (λ t acc, Some (from_option (Z.min t) t acc)) None l.

Definition ts_max (l : list Z) : option Z :=
  foldr (λ t acc, Some (from_option (Z.max t) t acc)) None l.

(** [Timestamp.date()]: the calendar day of a timestamp. *)
Definition date (t : Z) : Z := t / Filter.Timedelta_1day.

(** Lines 56-57.  [isna().all()] holds when no row has a timestamp; [today]
    is [datetime.today().date()]. *)
Definition min_date (today : Z) (df : list TransactionRecord) : Z :=
  match ts_min (omap Date_Transaction df) with
  | Some t => date t
  | None => today
  end.

Definition max_date (today : Z) (df : list TransactionRecord) : Z :=
  match ts_max (omap Date_Transaction df) with
  | Some t => date t
  | None => today
  end.

(** The arguments of the first call of the callback: the date picker holds
    [min_date] and [max_date], the drop-downs hold nothing. *)
Definition initial_spec (today : Z) (df : list TransactionRecord)
    : Filter.FilterSpec :=
  Filter.mkSpec (Some (min_date today df)) (Some (max_date today df))
                None None None.

End Layout.

(** ** Sample frames *)

Module Examples.

(** A row with the given category, quantity, payment mode, score and
    product, on the first of January 2024 in store A. *)
Definition row (cat : string) (qty : Z) (pay : string) (sat : Z)
    (prod : option string) : TransactionRecord :=
  mkRecord "c" (Some (Filter.to_datetime 19723)) 10 "storeA" cat qty pay sat
           prod.

(** The scenario of the specification: three rows, two stores, two
    categories. *)
Definition scenario : DataFrame :=
  mkFrame
    [mkRecord "c1" (Some (Filter.to_datetime 19723)) 10 "storeA" "catX" 2
              "Carte" 4 None;
     mkRecord "c2" (Some (Filter.to_datetime 19724)) 20 "storeA" "catY" 1
              "Carte" 5 None;
     mkRecord "c3" (Some (Filter.to_datetime 19724)) 30 "storeB" "catX" 3
              "Especes" 3 None]
    false.



(** Two products of one category that sold the same quantity. *)
Definition tied_products : DataFrame :=
  mkFrame [row "catX" 3 "Carte" 4 (Some "P1");
           row "catX" 3 "Carte" 4 (Some "P2")]
          true.

End Examples.

(** * Properties *)

(** ** Filtering *)

Module FilterFacts.
Import Filter.

Lemma filter_start_ok sd dff : filter_start sd dff = filter (start_ok sd) dff.
Proof.
  destruct sd; simpl; [done|].
  induction dff as [|r dff IH]; [done|].
  rewrite filter_cons_True by done. by rewrite <- IH.
Qed.

Lemma filter_end_ok ed dff : filter_end ed dff = filter (end_ok ed) dff.
Proof.
  destruct ed; simpl; [done|].
  induction dff as [|r dff IH]; [done|].
  rewrite filter_cons_True by done. by rewrite <- IH.
Qed.

Lemma filter_isin_ok col values dff :
  filter_isin col values dff = filter (isin_ok col values) dff.
Proof.
  destruct values as [[|v vs]|]; simpl; try done;
    (induction dff as [|r dff IH]; [done|];
     rewrite filter_cons_True by done; by rewrite <- IH).
Qed.

(** The five steps select the rows that pass all five tests. *)
Lemma filter_rows_passes s dff : filter_rows s dff = filter (passes s) dff.
Proof.
  unfold filter_rows.
  rewrite filter_start_ok, filter_end_ok, !filter_isin_ok.
  rewrite !list_filter_filter. apply list_filter_iff.
  unfold passes. tauto.
Qed.

Lemma filter_rows_elem s dff r :
  r ∈ filter_rows s dff ↔ r ∈ dff ∧ passes s r.
Proof. rewrite filter_rows_passes, list_elem_of_filter. tauto. Qed.

(** What the end-date step asks: a timestamp, at most midnight of the next
    day. *)
Lemma end_ok_Some d r :
  end_ok (Some d) r ↔
  ∃ t, Date_Transaction r = Some t ∧ t ≤ to_datetime (d + 1).
Proof.
  unfold end_ok, ts_le, to_datetime.
  destruct (Date_Transaction r) as [t|]; split.
  - intros Ht. exists t. split; [done|lia].
  - intros (t' & [= <-] & Ht). lia.
  - done.
  - by intros (t' & [=] & _).
Qed.

End FilterFacts.

Section FilterClaims.
Import Filter FilterFacts.

(** A row stamped in the last nanosecond of day [d] passes the end-date step
    for [d]. *)
Lemma end_ok_last_instant d r :
  Date_Transaction r = Some (to_datetime (d + 1) - 1) → end_ok (Some d) r.
Proof. intros Hr. apply end_ok_Some. eexists. split; [done|lia]. Qed.

(** C1, evaluated on the code: with [end_date = d], a row stamped at midnight
    opening day [d + 1] is kept by the filter, although its timestamp is not
    strictly below [end_date + 1 day] and its calendar day is [d + 1].  The
    upper bound of line 203 is inclusive. *)
Theorem C1_end_date_keeps_next_midnight (d : Z) :
  let r := mkRecord "" (Some (to_datetime (d + 1))) 0 "" "" 0 "" 0 None in
  filter_rows (mkSpec None (Some d) None None None) [r] = [r]
  ∧ Agg.Date_only r = Some (d + 1)
  ∧ ¬ (to_datetime (d + 1) < to_datetime d + Timedelta_1day).
Proof.
  intros r. split; [|split].
  - rewrite filter_rows_passes, filter_cons_True; [done|].
    unfold passes; simpl. repeat split.
    unfold ts_le; simpl. unfold to_datetime. lia.
  - unfold Agg.Date_only, r, to_datetime; simpl.
    f_equal. by apply Z.div_mul.
  - unfold to_datetime. lia.
Qed.

(** C6: filtering by stores [A] and then by categories [B] gives the frame
    that one filter by stores [A] and categories [B] gives; and every filter
    keeps exactly the rows that pass the conjunction of its active tests. *)
Theorem C6_conjunction (A B : list string) (df : DataFrame) :
  apply_filter (only_cats B) (apply_filter (only_stores A) df)
    = apply_filter (stores_and_cats A B) df
  ∧ ∀ s, rows (apply_filter s df) = filter (passes s) (rows df).
Proof.
  split; [reflexivity|].
  intros s. apply filter_rows_passes.
Qed.

(** C7: filtering twice by the same spec gives what filtering once gives. *)
Theorem C7_idempotent (s : FilterSpec) (df : DataFrame) :
  apply_filter s (apply_filter s df) = apply_filter s df.
Proof.
  unfold apply_filter; simpl. f_equal.
  rewrite !filter_rows_passes. by apply list_filter_filter_l.
Qed.

End FilterClaims.

(** ** Loading *)

Module LoaderFacts.
Import Loader.

Lemma elem_of_missing_cols columns c :
  c ∈ missing_cols columns ↔ c ∈ expected_cols ∧ c ∉ columns.
Proof. unfold missing_cols. set_solver. Qed.

Lemma sorted_expected_cols :
  Pandas.sorted_keys (elements expected_cols) =
  ["Categorie_Produit"; "Date_Transaction"; "ID_Client"; "Magasin";
   "Mode_Paiement"; "Montant"; "Quantite"; "Satisfaction_Client"].
Proof. vm_compute. reflexivity. Qed.

(** A frame with all eight columns goes through. *)
Lemma check_columns_complete columns :
  (∀ c, c ∈ expected_cols → c ∈ columns) → check_columns columns = None.
Proof.
  intros Hall. unfold check_columns.
  rewrite decide_True; [done|].
  apply set_eq. intros c. rewrite elem_of_missing_cols, elem_of_empty.
  split; [intros [Hc Hn]; exact (Hn (Hall c Hc)) | intros []].
Qed.

(** When a required column is absent from the frame, the check of lines
    28-31 exits; the exit names the set of the required columns that are
    absent, no other, and the eight required columns in sorted order.  In
    particular a frame without ['Quantite'] has ['Quantite'] in the set it
    names. *)
Lemma check_columns_missing (columns : list string) :
  (∃ c, c ∈ expected_cols ∧ c ∉ columns) →
  ∃ e, check_columns columns = Some e
    ∧ (∀ c, c ∈ missing e ↔ c ∈ expected_cols ∧ c ∉ columns)
    ∧ expected_sorted e =
        ["Categorie_Produit"; "Date_Transaction"; "ID_Client"; "Magasin";
         "Mode_Paiement"; "Montant"; "Quantite"; "Satisfaction_Client"]
    ∧ (∀ c, c ∈ expected_sorted e ↔ c ∈ expected_cols)
    ∧ ("Quantite" ∉ columns → "Quantite" ∈ missing e).
Proof.
  intros (c0 & Hexp & Hmiss). unfold check_columns.
  rewrite decide_False.
  - eexists. split; [done|]. simpl. split_and!.
    + intros c. apply elem_of_missing_cols.
    + apply sorted_expected_cols.
    + intros c. rewrite sorted_expected_cols. unfold expected_cols.
      rewrite elem_of_list_to_set, !list_elem_of_In. simpl. tauto.
    + intros Hq. apply elem_of_missing_cols. split; [|done].
      unfold expected_cols. set_solver.
  - intros Hempty.
    assert (c0 ∈ missing_cols columns) as Hin
      by (apply elem_of_missing_cols; done).
    rewrite Hempty in Hin. set_solver.
Qed.

(** With the timestamp column present, start-up ends in that exit. *)
Lemma startup_schema_error (columns : list string) :
  "Date_Transaction" ∈ columns →
  (∃ c, c ∈ expected_cols ∧ c ∉ columns) →
  ∃ e, startup (Some columns) = SchemaError e
    ∧ (∀ c, c ∈ missing e ↔ c ∈ expected_cols ∧ c ∉ columns)
    ∧ ("Quantite" ∉ columns → "Quantite" ∈ missing e).
Proof.
  intros Hts Hmiss. unfold startup. rewrite decide_True by done.
  destruct (check_columns_missing columns Hmiss) as (e & -> & He & _ & _ & Hq).
  eauto.
Qed.

(** A sheet without ['Quantite']. *)
Example startup_without_Quantite :
  ∃ e, startup (Some ["ID_Client"; "Date_Transaction"; "Montant"; "Magasin";
                      "Categorie_Produit"; "Mode_Paiement";
                      "Satisfaction_Client"]) = SchemaError e
    ∧ "Quantite" ∈ missing e.
Proof.
  destruct (startup_schema_error
              ["ID_Client"; "Date_Transaction"; "Montant"; "Magasin";
               "Categorie_Produit"; "Mode_Paiement"; "Satisfaction_Client"])
    as (e & He & _ & Hq).
  - rewrite list_elem_of_In. simpl. tauto.
  - exists "Quantite". split; [unfold expected_cols; set_solver|].
    rewrite list_elem_of_In. simpl. intuition discriminate.
  - exists e. split; [exact He|]. apply Hq.
    rewrite list_elem_of_In. simpl. intuition discriminate.
Qed.

Section CoercionFacts.
Variable floatify : string → option Float.
Variable str_of_num : Q → string.

(** Missing and unparsable amounts become [0.0]. *)
Lemma clean_Montant_default c :
  to_numeric_coerce floatify c = None → clean_Montant floatify c = Fin 0.
Proof. unfold clean_Montant. by intros ->. Qed.

(** Missing and unparsable quantities and scores become [0]. *)
Lemma clean_int_default c :
  to_numeric_coerce floatify c = None → clean_int floatify c = Ok 0.
Proof. unfold clean_int. by intros ->. Qed.

(** The integer conversion raises exactly on the infinities. *)
Lemma clean_int_raises c :
  clean_int floatify c = Raise IntCastingNaNError ↔
  ∃ neg, to_numeric_coerce floatify c = Some (Inf neg).
Proof.
  unfold clean_int.
  destruct (to_numeric_coerce floatify c) as [[x|neg]|]; simpl; split;
    try done; try (by intros (neg' & [=])); eauto.
Qed.

(** When the conversions go through, no row is dropped. *)
Lemma clean_length df df' :
  clean floatify str_of_num df = Ok df' → length df' = length df.
Proof.
  revert df'. induction df as [|r df IH]; intros df'; simpl.
  - by intros [= <-].
  - destruct (clean_row floatify str_of_num r) as [cr|e]; simpl; [|done].
    fold (clean floatify str_of_num df).
    destruct (clean floatify str_of_num df) as [crs|e]; simpl; [|done].
    intros [= <-]. simpl. f_equal. by apply IH.
Qed.

(** Text is kept as it is. *)
Lemma clean_str_text s : clean_str str_of_num (CStr s) = s.
Proof. reflexivity. Qed.

End CoercionFacts.

End LoaderFacts.

Section LoaderClaims.
Import Loader LoaderFacts.

(** C9, evaluated on the code: a sheet without the column
    ['Date_Transaction'] does not reach the schema check.  The reader of line
    23 raises, so no exit names the missing columns and the expected set,
    although ['Date_Transaction'] is one of the columns the check would
    report. *)
Theorem C9_missing_timestamp (columns : list string) :
  "Date_Transaction" ∉ columns →
  startup (Some columns) = ParseDatesValueError
  ∧ "Date_Transaction" ∈ missing_cols columns
  ∧ ∀ e, startup (Some columns) ≠ SchemaError e.
Proof.
  intros Hno. unfold startup. rewrite decide_False by done.
  split_and!; [done| |done].
  apply elem_of_missing_cols. split; [|done].
  unfold expected_cols. set_solver.
Qed.

Lemma C9_missing_timestamp_witness :
  startup (Some ["ID_Client"; "Montant"; "Magasin"; "Categorie_Produit";
                 "Quantite"; "Mode_Paiement"; "Satisfaction_Client"])
    = ParseDatesValueError.
Proof.
  apply (C9_missing_timestamp
           ["ID_Client"; "Montant"; "Magasin"; "Categorie_Produit";
            "Quantite"; "Mode_Paiement"; "Satisfaction_Client"]).
  rewrite list_elem_of_In. simpl. intuition discriminate.
Defined.

(** C10, evaluated on the code.  A row whose ['Magasin'] cell is empty comes
    out with the store ["nan"], not the empty text: [astype(str)] has already
    replaced the missing value when [fillna('')] runs.  A row whose
    ['Quantite'] cell holds a text that [to_numeric] reads as an infinity
    makes the conversion to [int] raise. *)
Theorem C10_coercion_on_code
    (floatify : string → option Float) (str_of_num : Q → string)
    (s : string) (neg : bool) :
  floatify s = Some (Inf neg) →
  clean floatify str_of_num
    [mkRaw (CStr "c1") (CNum 10) CNaN (CStr "catX") (CNum 2) (CStr "Carte")
           (CNum 4)]
    = Ok [mkClean "c1" (Fin 10) "nan" "catX" 2 "Carte" 4]
  ∧ clean floatify str_of_num
      [mkRaw (CStr "c1") (CNum 10) (CStr "storeA") (CStr "catX") (CStr s)
             (CStr "Carte") (CNum 4)]
    = Raise IntCastingNaNError.
Proof.
  intros Hs. split; [reflexivity|].
  unfold clean, clean_row, clean_int; simpl. by rewrite Hs.
Qed.

Lemma C10_coercion_on_code_witness :
  floatify_small "inf" = Some (Inf false)
  ∧ clean floatify_small (λ _, "")
      [mkRaw (CStr "c1") (CNum 10) (CStr "storeA") (CStr "catX") (CStr "inf")
             (CStr "Carte") (CNum 4)]
    = Raise IntCastingNaNError.
Proof.
  split; [reflexivity|].
  apply (C10_coercion_on_code floatify_small (λ _, "") "inf" false).
  reflexivity.
Defined.

End LoaderClaims.

(** ** Facts about the pandas primitives *)

Module PandasFacts.
Import Pandas.

Section KeyFacts.
Context {K : Type} `{Lexico K, !StrictOrder (@lexico K _),
                     !TrichotomyT (@lexico K _), !EqDecision K}.

Lemma elem_of_insert_key (k k' : K) ks :
  k' ∈ insert_key k ks ↔ k' = k ∨ k' ∈ ks.
Proof.
  induction ks as [|k0 ks IH]; simpl.
  - rewrite list_elem_of_singleton, elem_of_nil. tauto.
  - destruct (trichotomyT lexico k k0) as [[Hlt| ->]|Hgt].
    + by rewrite elem_of_cons.
    + rewrite elem_of_cons. tauto.
    + rewrite !elem_of_cons, IH. tauto.
Qed.

Lemma insert_key_sorted (k : K) ks :
  StronglySorted lexico ks → StronglySorted lexico (insert_key k ks).
Proof.
  induction 1 as [|k0 ks Hs IH Hall]; simpl.
  - repeat constructor.
  - destruct (trichotomyT lexico k k0) as [[Hlt| ->]|Hgt].
    + constructor; [by constructor|].
      constructor; [done|].
      eapply Forall_impl; [exact Hall|]. intros k1 Hk1. by trans k0.
    + by constructor.
    + constructor; [done|].
      apply Forall_forall. intros k1 [->|Hk1]%elem_of_insert_key; [done|].
      rewrite Forall_forall in Hall. by apply Hall.
Qed.

Lemma elem_of_sorted_keys (k : K) l : k ∈ sorted_keys l ↔ k ∈ l.
Proof.
  induction l as [|k0 l IH]; simpl; [done|].
  rewrite elem_of_insert_key, elem_of_cons, IH. tauto.
Qed.

(** The group keys are strictly ascending. *)
Lemma sorted_keys_sorted (l : list K) : StronglySorted lexico (sorted_keys l).
Proof.
  induction l as [|k0 l IH]; simpl; [constructor|].
  by apply insert_key_sorted.
Qed.

Lemma StronglySorted_lexico_NoDup (ks : list K) :
  StronglySorted lexico ks → NoDup ks.
Proof.
  induction 1 as [|k ks Hs IH Hall]; constructor; [|done].
  intros Hin. rewrite Forall_forall in Hall.
  by apply (irreflexivity lexico k), Hall.
Qed.

Lemma sorted_keys_NoDup (l : list K) : NoDup (sorted_keys l).
Proof. apply StronglySorted_lexico_NoDup, sorted_keys_sorted. Qed.

Lemma sorted_keys_nil_inv (l : list K) : sorted_keys l = [] → l = [].
Proof.
  destruct l as [|k l]; [done|]. intros Hnil.
  assert (k ∈ sorted_keys (k :: l)) as Hin
    by (apply elem_of_sorted_keys; left).
  rewrite Hnil in Hin. by apply elem_of_nil in Hin.
Qed.

End KeyFacts.

Section UniqueFacts.
Context {K : Type} `{!EqDecision K}.

Lemma elem_of_unique (k : K) l : k ∈ unique l ↔ k ∈ l.
Proof.
  induction l as [|k0 l IH]; simpl; [done|].
  rewrite !elem_of_cons, list_elem_of_filter, IH.
  destruct (decide (k = k0)); tauto.
Qed.

Lemma unique_NoDup (l : list K) : NoDup (unique l).
Proof.
  induction l as [|k0 l IH]; simpl; constructor.
  - rewrite list_elem_of_filter. tauto.
  - by apply NoDup_filter.
Qed.

End UniqueFacts.

(** *** Column sums *)




Lemma sum_Z_perm l1 l2 : l1 ≡ₚ l2 → sum_Z l1 = sum_Z l2.
Proof. induction 1; simpl; lia. Qed.



Lemma len_groups {R} (gs : list (list R)) :
  sum_Z (len <$> gs) = len (concat gs).
Proof.
  unfold len. induction gs as [|g gs IH]; [done|].
  cbn [fmap list_fmap concat sum_Z foldr].
  rewrite length_app. unfold sum_Z in IH. lia.
Qed.

(** *** Groups *)

Section GroupFacts.
Context {K : Type} `{!EqDecision K} {R : Type}.

Lemma filter_all (P : R → Prop) `{!∀ r, Decision (P r)} (d : list R) :
  Forall P d → filter P d = d.
Proof.
  induction 1 as [|r d Hr _ IH]; [done|].
  by rewrite filter_cons_True, IH.
Qed.

Lemma filter_none (P : R → Prop) `{!∀ r, Decision (P r)} (d : list R) :
  Forall (λ r, ¬ P r) d → filter P d = [].
Proof.
  induction 1 as [|r d Hr _ IH]; [done|].
  by rewrite filter_cons_False.
Qed.

Lemma filter_key_cons (key : R → K) k ks (d : list R) :
  k ∉ ks →
  filter (λ r, key r = k) d ++ filter (λ r, key r ∈ ks) d
    ≡ₚ filter (λ r, key r ∈ k :: ks) d.
Proof.
  intros Hk. induction d as [|r d IH]; [done|].
  rewrite !filter_cons.
  destruct (decide (key r = k)) as [Heq|Hne].
  - rewrite decide_False by (by rewrite Heq).
    rewrite decide_True by (rewrite Heq; left).
    simpl. by rewrite IH.
  - destruct (decide (key r ∈ ks)) as [Hin|Hnin].
    + rewrite decide_True by (by right).
      rewrite <- Permutation_middle. by rewrite IH.
    + rewrite decide_False; [done|].
      rewrite elem_of_cons. tauto.
Qed.

(** The groups of distinct keys are disjoint pieces of the frame. *)
Lemma groups_partition (key : R → K) ks (d : list R) :
  NoDup ks →
  concat ((λ k, filter (λ r, key r = k) d) <$> ks)
    ≡ₚ filter (λ r, key r ∈ ks) d.
Proof.
  induction 1 as [|k ks Hk _ IH]; simpl.
  - symmetry. rewrite filter_none; [done|].
    apply Forall_forall. intros r _. apply not_elem_of_nil.
  - rewrite IH. by apply filter_key_cons.
Qed.

End GroupFacts.


Lemma groupby_keys {K R} `{Lexico K, !StrictOrder (@lexico K _),
    !TrichotomyT (@lexico K _), !EqDecision K} (key : R → K) (d : list R) :
  fst <$> groupby key d = sorted_keys (key <$> d).
Proof.
  unfold groupby. rewrite <- list_fmap_compose.
  apply list_fmap_id.
Qed.

End PandasFacts.

(** ** Aggregation *)

Section StoreTableClaims.
Import Pandas PandasFacts Agg.


End StoreTableClaims.

Section EmptyClaims.
Import Filter Pandas Agg.

(** The aggregates of a frame without rows. *)
Lemma aggregate_empty (hp : bool) :
  aggregate (mkFrame [] hp) =
  mkBundle 0 0 0 0 [] [] [] [] [] [] []
           (if hp then NoProductData else ProductColumnAbsent)
           [] None [] [] [].
Proof. by destruct hp. Qed.

(** C3: when the filter keeps no row, the callback computes a count of [0],
    both means [0], every grouped view empty, and a message in the place of
    the top-5 tables.  [update_all] is a total function: nothing raises. *)
Theorem C3_empty_snapshot (s : FilterSpec) (df : DataFrame) :
  rows (apply_filter s df) = [] →
  let b := update_all s df in
  nb_transactions b = 0
  ∧ vente_moyenne b = 0%Q
  ∧ satisfaction_moyenne b = 0%Q
  ∧ total_ventes b = 0%Q
  ∧ daily b = [] ∧ sales_by_cat b = [] ∧ sales_store b = []
  ∧ avg_store b = [] ∧ store_table_data b = [] ∧ qty_cat b = []
  ∧ stacked b = [] ∧ pay_counts b = [] ∧ top_mode b = None
  ∧ sat_store b = [] ∧ sat_cat b = [] ∧ sat_table b = []
  ∧ top_products b =
      (if has_Produit df then NoProductData else ProductColumnAbsent).
Proof.
  intros Hempty. unfold update_all.
  replace (apply_filter s df) with (mkFrame [] (has_Produit df)).
  - rewrite aggregate_empty. simpl. by split_and!.
  - unfold apply_filter in *. simpl in Hempty. by rewrite Hempty.
Qed.

Lemma C3_empty_snapshot_witness :
  let df := mkFrame [mkRecord "c1" (Some 0) 10 "storeA" "catX" 2 "Carte" 4 None]
                    false in
  let b := update_all (only_stores ["storeB"]) df in
  nb_transactions b = 0 ∧ sat_table b = [].
Proof.
  intros df b.
  pose proof (C3_empty_snapshot (only_stores ["storeB"]) df eq_refl) as H.
  split; [apply H|]. apply H.
Defined.

End EmptyClaims.

Module SortFacts.
Import Pandas PandasFacts.

Section DescendingSort.
Context {K V : Type} (le : relation V)
        `{!RelDecision le, !Total le, !Transitive le}.

Lemma insert_desc_perm (x : K * V) s : insert_desc le x s ≡ₚ x :: s.
Proof.
  induction s as [|y s IH]; simpl; [done|].
  case_decide; [done|]. rewrite IH. apply Permutation_swap.
Qed.

Lemma sort_values_desc_perm (s : list (K * V)) : sort_values_desc le s ≡ₚ s.
Proof.
  induction s as [|x s IH]; simpl; [done|].
  by rewrite insert_desc_perm, IH.
Qed.

Lemma sort_values_desc_nil_inv (s : list (K * V)) :
  sort_values_desc le s = [] → s = [].
Proof.
  intros Hnil. apply Permutation_nil_r.
  rewrite <- Hnil. symmetry. apply sort_values_desc_perm.
Qed.



End DescendingSort.



End SortFacts.

Module CountFacts.
Import Pandas PandasFacts SortFacts.

Section FirstAppearance.
Context {K : Type} `{!EqDecision K}.





Context {R : Type}.


(** The counts of the groups add up to the number of rows. *)
Lemma counts_by_appearance_sum (col : R → K) (d : list R) :
  sum_Z (snd <$> counts_by_appearance col d) = len d.
Proof.
  unfold counts_by_appearance. rewrite <- list_fmap_compose.
  change (sum_Z (len ∘ (λ k, filter (λ r, col r = k) d) <$> unique (col <$> d))
          = len d).
  rewrite list_fmap_compose, len_groups. unfold len.
  rewrite (groups_partition col); [|apply unique_NoDup].
  rewrite filter_all; [done|].
  apply Forall_forall. intros r Hr.
  apply elem_of_unique, list_elem_of_fmap. eauto.
Qed.

End FirstAppearance.


Lemma value_counts_sum {K} `{!EqDecision K}
    (col : TransactionRecord → K) (d : list TransactionRecord) :
  sum_Z (snd <$> Agg.value_counts col d) = len d.
Proof.
  unfold Agg.value_counts.
  rewrite (sum_Z_perm _ (snd <$> counts_by_appearance col d)).
  - apply counts_by_appearance_sum.
  - apply fmap_Permutation, sort_values_desc_perm.
Qed.

End CountFacts.

Section TieBreakClaims.
Import Pandas PandasFacts SortFacts CountFacts Agg Examples.



End TieBreakClaims.

Module RoundFacts.
Import Pandas PandasFacts SortFacts CountFacts.

Local Open Scope Q_scope.





End RoundFacts.

Module SatFacts.
Import Pandas PandasFacts SortFacts CountFacts RoundFacts Agg.

Section SortIndex.
Context {K V : Type} `{Lexico K, !TrichotomyT (@lexico K _)}.

Lemma insert_index_perm (x : K * V) s : insert_index x s ≡ₚ x :: s.
Proof.
  induction s as [|y s IH]; simpl; [done|].
  destruct (trichotomyT lexico y.1 x.1) as [[?|?]|?]; try done;
    rewrite IH; apply Permutation_swap.
Qed.

Lemma sort_index_perm (s : list (K * V)) : sort_index s ≡ₚ s.
Proof.
  unfold sort_index.
  enough (∀ acc, foldl (λ acc x, insert_index x acc) acc s ≡ₚ acc ++ s) as Hacc
    by apply (Hacc []).
  induction s as [|x s IH]; intros acc; simpl.
  - by rewrite app_nil_r.
  - rewrite IH, insert_index_perm. simpl. apply Permutation_middle.
Qed.

End SortIndex.

Lemma sat_dist_perm d :
  sat_dist d ≡ₚ counts_by_appearance Satisfaction_Client d.
Proof.
  unfold sat_dist, value_counts.
  by rewrite sort_index_perm, sort_values_desc_perm.
Qed.

Lemma sat_dist_sum d : sum_Z (snd <$> sat_dist d) = len d.
Proof.
  rewrite (sum_Z_perm _ _ (fmap_Permutation snd _ _ (sat_dist_perm d))).
  apply counts_by_appearance_sum.
Qed.

(** The denominator of line 322 is the number of rows, [1] for no rows. *)
Lemma sat_total d :
  match sat_dist d with
  | [] => 1
  | _ => sum_Z (snd <$> sat_dist d)
  end = Z.max 1 (len d).
Proof.
  pose proof (sat_dist_sum d) as Hsum.
  destruct d as [|r d]; [reflexivity|].
  destruct (sat_dist (r :: d)) as [|sc l].
  - unfold len in Hsum. simpl in Hsum. lia.
  - rewrite Hsum. unfold len. simpl length. lia.
Qed.

Lemma sat_table_data_eq d :
  sat_table_data d =
  (λ sc, mkSatRow sc.1 sc.2
           (round2 (inject_Z sc.2 / inject_Z (Z.max 1 (len d)) * 100)%Q))
    <$> sat_dist d.
Proof.
  unfold sat_table_data. cbv zeta.
  by rewrite sat_total.
Qed.


End SatFacts.

Section SatisfactionClaims.
Import Pandas PandasFacts RoundFacts SatFacts Agg Examples.

Local Open Scope Q_scope.




End SatisfactionClaims.

Module TopFacts.
Import Pandas PandasFacts SortFacts Agg.





Lemma elem_of_ranking sub p q :
  (p, q) ∈ ranking sub ↔
  Some p ∈ Produit <$> sub
  ∧ q = col_sum_Quantite (filter (λ r, Produit r = Some p) sub).
Proof.
  unfold ranking. rewrite sort_values_desc_perm.
  unfold agg, groupby_dropna. rewrite <- list_fmap_compose.
  rewrite list_elem_of_fmap. split.
  - intros (k & [= -> ->] & Hk). split; [|done].
    apply (proj1 (elem_of_sorted_keys _ _)) in Hk.
    apply list_elem_of_omap in Hk as (r & Hr & Hp).
    apply list_elem_of_fmap. eauto.
  - intros [(r & Hp & Hr)%list_elem_of_fmap ->]. exists p. split; [done|].
    apply elem_of_sorted_keys, list_elem_of_omap. eauto.
Qed.






(** The tables: one for every category whose five best are not empty. *)
Lemma elem_of_top_tables dff cat table :
  (cat, table) ∈ top_tables dff ↔
  cat ∈ Categorie_Produit <$> dff
  ∧ top_prod (filter (λ r, Categorie_Produit r = cat) dff) ≠ []
  ∧ table = add_rank (top_prod (filter (λ r, Categorie_Produit r = cat) dff)).
Proof.
  unfold top_tables. rewrite list_elem_of_omap. split.
  - intros (c & Hc & Htab). cbv zeta in Htab.
    apply (proj1 (elem_of_sorted_keys _ _)) in Hc.
    destruct (top_prod (filter (λ r, Categorie_Produit r = c) dff))
      as [|x tp] eqn:Htp; [done|].
    injection Htab as <- <-. by rewrite Htp.
  - intros (Hc & Hne & ->). exists cat.
    split; [by apply elem_of_sorted_keys|]. cbv zeta.
    by destruct (top_prod (filter (λ r, Categorie_Produit r = cat) dff)).
Qed.

End TopFacts.

Section TopProductsClaims.
Import Pandas PandasFacts SortFacts TopFacts Agg Examples.




End TopProductsClaims.

(** ** The scenario of the specification *)

Section Scenario.
Import Filter Agg Examples.

(** Filtering the three rows by store A: total 30, two transactions, mean
    15, and category Y (20) ahead of category X (10). *)
Example scenario_store_A :
  let b := update_all (only_stores ["storeA"]) scenario in
  (total_ventes b == 30)%Q
  ∧ nb_transactions b = 2
  ∧ (vente_moyenne b == 15)%Q
  ∧ sales_by_cat b = [("catY", 20%Q); ("catX", 10%Q)].
Proof. by vm_compute. Qed.

(** With the end date on the first of January the filter keeps the two rows
    stamped at midnight of the second as well. *)
Example scenario_end_date :
  length (rows (apply_filter (mkSpec None (Some 19723) None None None) scenario))
  = 3%nat.
Proof. reflexivity. Qed.

End Scenario.

(** * Further properties of the code *)

(** ** The filter of [update_all] *)

Module FilterMore.
Import Filter FilterFacts.

(** Filtering keeps rows of the frame in their order, adds none, and keeps
    the columns. *)
Theorem apply_filter_sublist (s : FilterSpec) (df : DataFrame) :
  rows (apply_filter s df) `sublist_of` rows df
  ∧ has_Produit (apply_filter s df) = has_Produit df.
Proof.
  split; [|done]. simpl. rewrite filter_rows_passes. apply sublist_filter.
Qed.

(** With the dates cleared and nothing selected in the drop-downs the frame
    comes back whole: an empty selection is no constraint. *)
Theorem apply_filter_unconstrained (s : FilterSpec) (df : DataFrame) :
  start_date s = None → end_date s = None →
  falsy (stores s) → falsy (cats s) → falsy (pays s) →
  apply_filter s df = df.
Proof.
  destruct s as [sd ed st ca pa], df as [d hp]; simpl.
  intros -> -> [->| ->] [->| ->] [->| ->]; reflexivity.
Qed.

Lemma apply_filter_unconstrained_witness :
  apply_filter (mkSpec None None (Some []) None (Some [])) Examples.scenario
  = Examples.scenario.
Proof.
  apply apply_filter_unconstrained; simpl; unfold falsy; auto.
Defined.

(** A row without a timestamp is dropped as soon as one of the two dates is
    given, whatever the date. *)
Theorem filter_drops_NaT (s : FilterSpec) (dff : list TransactionRecord)
    (r : TransactionRecord) :
  Date_Transaction r = None →
  is_Some (start_date s) ∨ is_Some (end_date s) →
  r ∉ filter_rows s dff.
Proof.
  intros Hnat Hdate [_ Hpass]%filter_rows_elem.
  destruct Hpass as (Hs & He & _).
  destruct Hdate as [[d Hd]|[d Hd]].
  - rewrite Hd in Hs. unfold start_ok, ts_ge in Hs. by rewrite Hnat in Hs.
  - rewrite Hd in He. unfold end_ok, ts_le in He. by rewrite Hnat in He.
Qed.

Lemma filter_drops_NaT_witness :
  let r := mkRecord "c" None 10 "storeA" "catX" 1 "Carte" 4 None in
  r ∉ filter_rows (mkSpec (Some 0) None None None None) [r].
Proof.
  intros r. apply filter_drops_NaT; [reflexivity|]. left. by eexists.
Defined.

(** Two filters applied one after the other give the same frame in either
    order. *)
Theorem apply_filter_comm (s1 s2 : FilterSpec) (df : DataFrame) :
  apply_filter s1 (apply_filter s2 df) = apply_filter s2 (apply_filter s1 df).
Proof.
  unfold apply_filter; simpl. f_equal.
  rewrite !filter_rows_passes, !list_filter_filter.
  apply list_filter_iff. tauto.
Qed.

(** The calendar day of a timestamp [t] is [d] exactly when [t] lies between
    midnight of [d], included, and midnight of [d + 1], excluded; this holds
    before the epoch as well. *)
Theorem Date_only_bounds (r : TransactionRecord) (d : Z) :
  Agg.Date_only r = Some d ↔
  ∃ t, Date_Transaction r = Some t
       ∧ to_datetime d ≤ t < to_datetime (d + 1).
Proof.
  unfold Agg.Date_only, to_datetime, Timedelta_1day.
  destruct (Date_Transaction r) as [t|]; simpl; split.
  - intros [= <-]. exists t. split; [done|].
    pose proof (Z.mul_div_le t (86400 * 1000000000)).
    pose proof (Z.mul_succ_div_gt t (86400 * 1000000000)). lia.
  - intros (t' & [= <-] & Hlo & Hhi). f_equal.
    symmetry. apply (Z.div_unique_pos t _ d (t - d * (86400 * 1000000000)));
      lia.
  - done.
  - by intros (t' & [=] & _).
Qed.

(** The start date is inclusive by calendar day: with only a start date the
    filter keeps exactly the rows whose calendar day is that date or a later
    one. *)
Theorem filter_start_by_day (d : Z) (dff : list TransactionRecord)
    (r : TransactionRecord) :
  r ∈ filter_rows (mkSpec (Some d) None None None None) dff ↔
  r ∈ dff ∧ ∃ day, Agg.Date_only r = Some day ∧ d ≤ day.
Proof.
  rewrite filter_rows_elem. unfold passes; simpl.
  unfold ts_ge, Agg.Date_only, to_datetime, Timedelta_1day.
  destruct (Date_Transaction r) as [t|]; simpl.
  - split.
    + intros (Hin & Hge & _). split; [done|]. eexists. split; [done|].
      apply Z.div_le_lower_bound; lia.
    + intros (Hin & day & [= <-] & Hd). split_and!; try done.
      pose proof (Z.mul_div_le t (86400 * 1000000000)). nia.
  - split; [tauto|]. by intros (_ & day & [=] & _).
Qed.

End FilterMore.

(** ** Grouped sums and means *)

Module GroupMore.
Import Pandas PandasFacts SortFacts Agg.

Lemma filter_ext_in {A} (P Q : A → Prop) `{!∀ x, Decision (P x),
    !∀ x, Decision (Q x)} (l : list A) :
  (∀ x, x ∈ l → P x ↔ Q x) → filter P l = filter Q l.
Proof.
  induction l as [|a l IH]; intros Hext; [done|].
  rewrite !filter_cons.
  rewrite IH by (intros x Hx; apply Hext; by right).
  apply decide_ext, Hext. left.
Qed.




Lemma agg_keys {K R V} `{Lexico K, !StrictOrder (@lexico K _),
    !TrichotomyT (@lexico K _), !EqDecision K}
    (f : list R → V) (key : R → K) (d : list R) :
  fst <$> agg f (groupby key d) = sorted_keys (key <$> d).
Proof.
  unfold agg. rewrite <- list_fmap_compose. apply groupby_keys.
Qed.


(** The store table has one row for every store of the frame and no other,
    in ascending order of the store name. *)
Theorem store_table_keys (dff : DataFrame) :
  let t := store_table_data (aggregate dff) in
  StronglySorted lexico (sr_Magasin <$> t)
  ∧ NoDup (sr_Magasin <$> t)
  ∧ ∀ m, m ∈ sr_Magasin <$> t ↔ m ∈ Magasin <$> rows dff.
Proof.
  simpl. rewrite <- list_fmap_compose.
  change (sr_Magasin ∘ _) with (@fst string (list TransactionRecord)).
  rewrite groupby_keys. split_and!.
  - apply sorted_keys_sorted.
  - apply sorted_keys_NoDup.
  - intros m. apply elem_of_sorted_keys.
Qed.

(** A sorted view has one entry for every key of the frame and no other. *)
Theorem sorted_view_keys (dff : DataFrame) :
  let b := aggregate dff in
  (NoDup (fst <$> sales_by_cat b)
   ∧ ∀ c, c ∈ fst <$> sales_by_cat b ↔ c ∈ Categorie_Produit <$> rows dff)
  ∧ (NoDup (fst <$> sales_store b)
     ∧ ∀ m, m ∈ fst <$> sales_store b ↔ m ∈ Magasin <$> rows dff).
Proof.
  simpl. split.
  - pose proof (fmap_Permutation fst _ _
      (sort_values_desc_perm Qle
         (agg col_sum_Montant (groupby Categorie_Produit (rows dff))))) as Hp.
    rewrite agg_keys in Hp. split.
    + rewrite Hp. apply sorted_keys_NoDup.
    + intros c. rewrite Hp. apply elem_of_sorted_keys.
  - pose proof (fmap_Permutation fst _ _
      (sort_values_desc_perm Qle
         (agg col_sum_Montant (groupby Magasin (rows dff))))) as Hp.
    rewrite agg_keys in Hp. split.
    + rewrite Hp. apply sorted_keys_NoDup.
    + intros m. rewrite Hp. apply elem_of_sorted_keys.
Qed.

End GroupMore.

(** ** Means *)

Module MeanMore.
Import Pandas PandasFacts SortFacts Agg GroupMore.

Local Open Scope Q_scope.

Lemma len_pos {A} (l : list A) : l ≠ [] → (0 < len l)%Z.
Proof. unfold len. destruct l; [done|simpl; lia]. Qed.

Lemma inject_Z_len_pos {A} (l : list A) : l ≠ [] → 0 < inject_Z (len l).
Proof.
  intros Hne%len_pos. change 0 with (inject_Z 0). by rewrite <- Zlt_Qlt.
Qed.

Lemma len_fmap {A B} (f : A → B) (l : list A) : len (f <$> l) = len l.
Proof. unfold len. by rewrite length_fmap. Qed.


Lemma sum_Q_bounds (lo hi : Q) (l : list Q) :
  Forall (λ x, lo <= x <= hi) l →
  lo * inject_Z (len l) <= sum_Q l <= hi * inject_Z (len l).
Proof.
  unfold len. induction 1 as [|x l Hx _ IH];
    cbn [sum_Q foldr length].
  - change (inject_Z (Z.of_nat 0)) with 0. lra.
  - rewrite Nat2Z.inj_succ. unfold Z.succ. rewrite inject_Z_plus.
    change (inject_Z 1) with 1. unfold sum_Q in IH. lra.
Qed.

(** The mean of values between two bounds lies between the bounds. *)
Lemma mean_Q_bounds (lo hi : Q) (l : list Q) :
  l ≠ [] → Forall (λ x, lo <= x <= hi) l → lo <= mean_Q l <= hi.
Proof.
  intros Hne%inject_Z_len_pos [Hlo Hhi]%sum_Q_bounds. unfold mean_Q. split.
  - by apply Qle_shift_div_l.
  - by apply Qle_shift_div_r.
Qed.

(** The members of a group are rows of the frame, and a group is not empty. *)
Lemma elem_of_groupby {K R} `{Lexico K, !StrictOrder (@lexico K _),
    !TrichotomyT (@lexico K _), !EqDecision K}
    (key : R → K) (d : list R) (kg : K * list R) :
  kg ∈ groupby key d ↔
  kg.1 ∈ key <$> d ∧ kg.2 = filter (λ r, key r = kg.1) d.
Proof.
  unfold groupby. rewrite list_elem_of_fmap. split.
  - intros (k & -> & Hk). split; [|done]. by apply elem_of_sorted_keys.
  - intros [Hk Hg]. exists kg.1. split; [|by apply elem_of_sorted_keys].
    destruct kg; simpl in *. by rewrite Hg.
Qed.

Lemma group_nonempty {K R} `{!EqDecision K} (key : R → K) (d : list R) k :
  k ∈ key <$> d → filter (λ r, key r = k) d ≠ [].
Proof.
  intros (r & -> & Hr)%list_elem_of_fmap Hnil.
  by apply (filter_nil_not_elem_of _ _ r) in Hnil.
Qed.


(** Every row of the store table counts at least one transaction, and the
    bar of that store in the mean-amount chart is its total divided by its
    count. *)
Theorem store_row_mean (dff : DataFrame) (row : StoreRow) :
  row ∈ store_table_data (aggregate dff) →
  (1 ≤ Nb_Transactions row)%Z
  ∧ (sr_Magasin row, Ventes_Totales row / inject_Z (Nb_Transactions row))
      ∈ avg_store (aggregate dff).
Proof.
  simpl. intros (kg & -> & Hkg)%list_elem_of_fmap. simpl.
  pose proof Hkg as [Hk Hg]%elem_of_groupby.
  split.
  - rewrite Hg. pose proof (len_pos _ (group_nonempty Magasin _ _ Hk)). lia.
  - rewrite sort_values_desc_perm. unfold agg.
    apply list_elem_of_fmap. exists kg. split; [|done].
    unfold col_mean_Montant, mean_Q, col_sum_Montant.
    by rewrite len_fmap.
Qed.

Lemma store_row_mean_witness :
  ("storeA", 30 / inject_Z 2) ∈ avg_store (aggregate Examples.scenario).
Proof.
  apply (store_row_mean Examples.scenario (mkStoreRow "storeA" (0 + (10 + (20 + 0))) 2)).
  vm_compute. left.
Defined.

(** When every score of a frame with rows lies between [lo] and [hi], so do
    the mean-satisfaction KPI and every bar of the two satisfaction charts. *)
Theorem satisfaction_means_bounded (dff : DataFrame) (lo hi : Z) :
  rows dff ≠ [] →
  Forall (λ r, (lo ≤ Satisfaction_Client r ≤ hi)%Z) (rows dff) →
  let b := aggregate dff in
  inject_Z lo <= satisfaction_moyenne b <= inject_Z hi
  ∧ Forall (λ kv, inject_Z lo <= kv.2 <= inject_Z hi) (sat_store b)
  ∧ Forall (λ kv, inject_Z lo <= kv.2 <= inject_Z hi) (sat_cat b).
Proof.
  intros Hne Hall.
  assert (∀ g : list TransactionRecord, g ≠ [] → g ⊆ rows dff →
            inject_Z lo <= col_mean_Satisfaction g <= inject_Z hi) as Hmean.
  { intros g Hg Hsub. apply mean_Q_bounds.
    - by destruct g.
    - apply Forall_fmap, Forall_forall. intros r Hr. simpl.
      rewrite Forall_forall in Hall. rewrite <- !Zle_Qle.
      by apply Hall, Hsub. }
  assert (∀ (key : TransactionRecord → string),
            Forall (λ kv, inject_Z lo <= kv.2 <= inject_Z hi)
              (sort_values_desc Qle
                 (agg col_mean_Satisfaction (groupby key (rows dff)))))
    as Hview.
  { intros key. rewrite sort_values_desc_perm. unfold agg.
    apply Forall_fmap, Forall_forall.
    intros kg [Hk Hg]%elem_of_groupby. simpl. rewrite Hg.
    apply Hmean; [by apply group_nonempty|apply list_subseteq_filter]. }
  intros b. split; [|split; apply Hview].
  unfold b, aggregate; cbn [satisfaction_moyenne].
  rewrite decide_True by (by apply len_pos).
  by apply Hmean.
Qed.

Lemma satisfaction_means_bounded_witness :
  inject_Z 1 <= satisfaction_moyenne (aggregate Examples.scenario)
             <= inject_Z 5.
Proof.
  apply (satisfaction_means_bounded Examples.scenario 1 5).
  - discriminate.
  - repeat constructor; simpl; lia.
Defined.

End MeanMore.

(** ** Daily revenue, payment modes, scores and top products *)

Module ViewMore.
Import Pandas PandasFacts SortFacts CountFacts SatFacts TopFacts Agg GroupMore
       MeanMore.


Section Idxmax.
Context {K V : Type} (le : relation V) `{!RelDecision le}.


End Idxmax.

Lemma elem_of_value_counts {K} `{!EqDecision K}
    (col : TransactionRecord → K) (d : list TransactionRecord) (k : K) (c : Z) :
  (k, c) ∈ value_counts col d ↔
  k ∈ col <$> d ∧ c = len (filter (λ r, col r = k) d).
Proof.
  unfold value_counts. rewrite sort_values_desc_perm.
  unfold counts_by_appearance. rewrite list_elem_of_fmap. split.
  - intros (k' & [= -> ->] & Hk). split; [|done]. by apply elem_of_unique.
  - intros [Hk ->]. exists k. split; [done|]. by apply elem_of_unique.
Qed.

(** The payment-mode counts have one entry per mode of the frame, with the
    number of rows of that mode, which is at least one; the counts add up to
    the number of transactions. *)
Theorem pay_counts_entries (dff : DataFrame) :
  let b := aggregate dff in
  (∀ m c, (m, c) ∈ pay_counts b ↔
     m ∈ Mode_Paiement <$> rows dff
     ∧ c = len (filter (λ r, Mode_Paiement r = m) (rows dff)))
  ∧ Forall (λ kv, 1 ≤ kv.2) (pay_counts b)
  ∧ NoDup (fst <$> pay_counts b)
  ∧ sum_Z (snd <$> pay_counts b) = nb_transactions b.
Proof.
  simpl. split_and!.
  - intros m c. apply elem_of_value_counts.
  - apply Forall_forall. intros [m c] [Hm ->]%elem_of_value_counts. simpl.
    pose proof (len_pos _ (group_nonempty Mode_Paiement _ _ Hm)). lia.
  - unfold value_counts.
    rewrite (fmap_Permutation fst _ _ (sort_values_desc_perm Z.le _)).
    unfold counts_by_appearance. rewrite <- list_fmap_compose, list_fmap_id.
    apply unique_NoDup.
  - apply value_counts_sum.
Qed.


Section SortIndexSorted.
Context {K V : Type} `{Lexico K, !StrictOrder (@lexico K _),
                       !TrichotomyT (@lexico K _)}.

Lemma insert_index_sorted (x : K * V) (s : list (K * V)) :
  StronglySorted (λ a b, lexico a.1 b.1) s →
  x.1 ∉ fst <$> s →
  StronglySorted (λ a b, lexico a.1 b.1) (insert_index x s).
Proof.
  induction 1 as [|y s Hs IH Hy]; intros Hx; simpl.
  - repeat constructor.
  - rewrite fmap_cons, not_elem_of_cons in Hx. destruct Hx as [Hne Hx].
    destruct (trichotomyT lexico y.1 x.1) as [[Hlt|Heq]|Hgt].
    + constructor; [by apply IH|].
      rewrite insert_index_perm. by constructor.
    + by destruct Hne.
    + constructor; [by constructor|]. constructor; [done|].
      eapply Forall_impl; [exact Hy|]. intros z Hz. by trans (y.1).
Qed.

(** On a series with distinct keys [sort_index] gives strictly ascending
    keys. *)
Lemma sort_index_sorted (s : list (K * V)) :
  NoDup (fst <$> s) → StronglySorted (λ a b, lexico a.1 b.1) (sort_index s).
Proof.
  unfold sort_index.
  enough (∀ acc, StronglySorted (λ a b : K * V, lexico a.1 b.1) acc →
                 NoDup (fst <$> (acc ++ s)) →
                 StronglySorted (λ a b : K * V, lexico a.1 b.1)
                   (foldl (λ acc x, insert_index x acc) acc s)) as Hacc.
  { intros Hnd. apply Hacc; [constructor|done]. }
  induction s as [|x s IH]; intros acc Hs Hnd; simpl; [done|].
  rewrite fmap_app, fmap_cons in Hnd.
  apply NoDup_app in Hnd as (Hacc & Hdisj & [Hx Hnd]%NoDup_cons).
  apply IH.
  - apply insert_index_sorted; [done|]. intros Hin.
    by apply (Hdisj _ Hin); left.
  - rewrite insert_index_perm, fmap_app, fmap_cons. simpl.
    constructor.
    + rewrite elem_of_app. intros [Hin|Hin]; [|done].
      by apply (Hdisj _ Hin); left.
    + apply NoDup_app. split_and!; [done| |done].
      intros k Hk Hk'. apply (Hdisj _ Hk). by right.
Qed.

End SortIndexSorted.

(** The satisfaction table has one row per score of the frame, scores
    ascending, and its counts add up to the number of transactions. *)
Theorem sat_table_scores (dff : DataFrame) :
  let b := aggregate dff in
  StronglySorted Z.lt (score <$> sat_table b)
  ∧ (∀ sc, sc ∈ score <$> sat_table b ↔
       sc ∈ Satisfaction_Client <$> rows dff)
  ∧ sum_Z (count <$> sat_table b) = nb_transactions b.
Proof.
  intros b. unfold b, aggregate; cbn [sat_table nb_transactions].
  rewrite sat_table_data_eq, <- !list_fmap_compose.
  change (score ∘ _) with (@fst Z Z). change (count ∘ _) with (@snd Z Z).
  assert (fst <$> sat_dist (rows dff)
          ≡ₚ unique (Satisfaction_Client <$> rows dff)) as Hkeys.
  { rewrite sat_dist_perm. unfold counts_by_appearance.
    by rewrite <- list_fmap_compose, list_fmap_id. }
  split_and!.
  - eapply (StronglySorted_fmap fst); [|apply sort_index_sorted].
    + by intros x y Hxy.
    + unfold value_counts.
      rewrite (fmap_Permutation fst _ _ (sort_values_desc_perm Z.le _)).
      unfold counts_by_appearance.
      rewrite <- list_fmap_compose, list_fmap_id. apply unique_NoDup.
  - intros sc. rewrite Hkeys. apply elem_of_unique.
  - apply sat_dist_sum.
Qed.

Lemma omap_keys_sorted {K V} (R : relation K) (f : K → option (K * V))
    (ks : list K) :
  (∀ k x, f k = Some x → x.1 = k) →
  StronglySorted R ks → StronglySorted R (fst <$> omap f ks).
Proof.
  intros Hf. induction 1 as [|k ks Hs IH Hk]; simpl; [constructor|].
  destruct (f k) as [x|] eqn:Hx; simpl; [|done].
  constructor; [done|]. rewrite (Hf _ _ Hx).
  rewrite Forall_forall in Hk. apply Forall_forall.
  intros k' (x' & -> & (k0 & Hk0 & Hx')%list_elem_of_omap)%list_elem_of_fmap.
  rewrite (Hf _ _ Hx'). by apply Hk.
Qed.

Lemma top_prod_nonempty (sub : list TransactionRecord) :
  top_prod sub ≠ [] ↔ ∃ r, r ∈ sub ∧ is_Some (Produit r).
Proof.
  unfold top_prod. split.
  - intros Hne. destruct (ranking sub) as [|[p q] l] eqn:Hr; [done|].
    assert ((p, q) ∈ ranking sub) as Hin by (rewrite Hr; left).
    apply elem_of_ranking in Hin as [(r & Hp & Hin)%list_elem_of_fmap _].
    exists r. split; [done|]. by rewrite <- Hp.
  - intros (r & Hr & [p Hp]) Hnil.
    assert ((p, col_sum_Quantite (filter (λ r, Produit r = Some p) sub))
            ∈ ranking sub) as Hin.
    { apply elem_of_ranking. split; [|done].
      apply list_elem_of_fmap. eauto. }
    destruct (ranking sub); [by apply elem_of_nil in Hin|done].
Qed.

(** With the column ['Produit'] present: the tables come in ascending order
    of the category, at most one per category; a category has a table
    exactly when one of its rows names a product; and the "no data" message
    is shown exactly when no row of the frame names a product. *)
Theorem top_products_shape (dff : DataFrame) :
  has_Produit dff = true →
  StronglySorted lexico (fst <$> top_tables (rows dff))
  ∧ (∀ cat, cat ∈ fst <$> top_tables (rows dff) ↔
       ∃ r, r ∈ rows dff ∧ Categorie_Produit r = cat ∧ is_Some (Produit r))
  ∧ (top_products_children dff = NoProductData ↔
       Forall (λ r, Produit r = None) (rows dff)).
Proof.
  intros Hp.
  assert (∀ cat, cat ∈ fst <$> top_tables (rows dff) ↔
            ∃ r, r ∈ rows dff ∧ Categorie_Produit r = cat
                 ∧ is_Some (Produit r)) as Hcat.
  { intros cat. rewrite list_elem_of_fmap. split.
    - intros ([c t] & -> & (_ & Hne & _)%elem_of_top_tables). simpl.
      apply top_prod_nonempty in Hne as (r & [Hc Hr]%list_elem_of_filter & Hs).
      eauto.
    - intros (r & Hr & Hc & Hs). eexists (cat, _). split; [done|].
      apply elem_of_top_tables. split_and!; [|
        apply top_prod_nonempty; exists r; by rewrite list_elem_of_filter|done].
      rewrite <- Hc. by apply list_elem_of_fmap_2. }
  split_and!; [|done|].
  - apply omap_keys_sorted; [|apply sorted_keys_sorted].
    intros k x Hx. cbv zeta in Hx.
    destruct (top_prod _); [done|]. by injection Hx as <-.
  - unfold top_products_children. rewrite Hp. split.
    + intros Hno. apply Forall_forall. intros r Hr.
      destruct (Produit r) as [p|] eqn:Hpr; [|done].
      assert (Categorie_Produit r ∈ fst <$> top_tables (rows dff)) as Hin
        by (apply Hcat; exists r; by rewrite Hpr).
      destruct (top_tables (rows dff)); [by apply elem_of_nil in Hin|done].
    + intros Hall. destruct (top_tables (rows dff)) as [|[c t] l] eqn:Ht;
        [done|].
      assert (c ∈ fst <$> (c, t) :: l) as Hin by left.
      apply Hcat in Hin as (r & Hr & _ & [p Hs]).
      rewrite Forall_forall in Hall. by rewrite (Hall _ Hr) in Hs.
Qed.

Lemma top_products_shape_witness :
  "catX" ∈ fst <$> top_tables (rows Examples.tied_products).
Proof.
  destruct (top_products_shape Examples.tied_products eq_refl)
    as (_ & Hcat & _).
  apply Hcat. eexists. split; [left|]. split; [done|]. by eexists.
Defined.

End ViewMore.

(** ** The filter options of the layout *)

Module LayoutMore.
Import Filter FilterFacts Pandas PandasFacts Layout GroupMore.

Section SortedFacts.
Context {K : Type} `{Lexico K, !StrictOrder (@lexico K _),
                     !TrichotomyT (@lexico K _)}.

Lemma insert_sorted_perm (x : K) l : insert_sorted x l ≡ₚ x :: l.
Proof.
  induction l as [|y l IH]; simpl; [done|].
  destruct (trichotomyT lexico y x) as [[?|?]|?]; try done.
  rewrite IH. apply Permutation_swap.
Qed.

Lemma sorted_perm (l : list K) : sorted l ≡ₚ l.
Proof.
  induction l as [|x l IH]; simpl; [done|].
  by rewrite insert_sorted_perm, IH.
Qed.

Lemma insert_sorted_sorted (x : K) l :
  StronglySorted (λ a b, ¬ lexico b a) l →
  StronglySorted (λ a b, ¬ lexico b a) (insert_sorted x l).
Proof.
  induction 1 as [|y l Hs IH Hy]; simpl.
  - repeat constructor.
  - destruct (trichotomyT lexico y x) as [[Hlt|Heq]|Hgt].
    + constructor; [done|]. rewrite insert_sorted_perm.
      constructor; [|done]. intros Hxy.
      by apply (irreflexivity lexico x); trans y.
    + subst y. constructor; [by constructor|].
      constructor; [apply irreflexivity, _|done].
    + constructor; [by constructor|]. constructor.
      * intros Hyx. by apply (irreflexivity lexico x); trans y.
      * eapply Forall_impl; [exact Hy|]. intros z Hz Hzx.
        apply Hz. by trans x.
Qed.

Lemma sorted_ascending (l : list K) :
  StronglySorted (λ a b, ¬ lexico b a) (sorted l).
Proof.
  induction l as [|x l IH]; simpl; [constructor|].
  by apply insert_sorted_sorted.
Qed.

(** [sorted] of distinct values is strictly ascending. *)
Lemma sorted_sorted (l : list K) :
  NoDup l → StronglySorted lexico (sorted l).
Proof.
  intros Hnd. pose proof (sorted_ascending l) as Hs.
  rewrite <- sorted_perm in Hnd.
  induction Hs as [|x s Hs IH Hx]; [constructor|].
  apply NoDup_cons in Hnd as [Hxs Hnd].
  constructor; [by apply IH|].
  rewrite Forall_forall in Hx. apply Forall_forall. intros y Hy.
  destruct (trichotomyT lexico x y) as [[Hlt|Heq]|Hgt]; [done| |].
  - by subst y.
  - by destruct (Hx _ Hy).
Qed.

End SortedFacts.

(** The options of a drop-down are the values of the column, each once, in
    ascending order, and the label of an option is its value. *)
Theorem options_values (col : TransactionRecord → string)
    (df : list TransactionRecord) :
  StronglySorted lexico (snd <$> options col df)
  ∧ Forall (λ lv, lv.1 = lv.2) (options col df)
  ∧ ∀ v, v ∈ snd <$> options col df ↔ v ∈ col <$> df.
Proof.
  unfold options. rewrite <- list_fmap_compose, list_fmap_id. split_and!.
  - apply sorted_sorted, unique_NoDup.
  - by apply Forall_fmap, Forall_forall.
  - intros v. rewrite sorted_perm. apply elem_of_unique.
Qed.

(** Selecting every option of a drop-down keeps every row. *)
Theorem select_all_options (col : TransactionRecord → string)
    (df : list TransactionRecord) :
  filter_isin col (Some (snd <$> options col df)) df = df.
Proof.
  rewrite filter_isin_ok. apply filter_all, Forall_forall. intros r Hr.
  assert (col r ∈ snd <$> options col df) as Hin
    by (apply options_values; by apply list_elem_of_fmap_2).
  unfold isin_ok. by destruct (snd <$> options col df).
Qed.

Lemma ts_min_le (l : list Z) (t : Z) :
  t ∈ l → ∃ m, ts_min l = Some m ∧ m ≤ t.
Proof.
  induction l as [|x l IH]; intros Hin; [by apply elem_of_nil in Hin|].
  simpl. apply elem_of_cons in Hin as [->|Hin].
  - eexists. split; [done|]. destruct (ts_min l); simpl; lia.
  - destruct (IH Hin) as (m & -> & Hm). eexists. split; [done|]. simpl. lia.
Qed.

Lemma ts_max_ge (l : list Z) (t : Z) :
  t ∈ l → ∃ m, ts_max l = Some m ∧ t ≤ m.
Proof.
  induction l as [|x l IH]; intros Hin; [by apply elem_of_nil in Hin|].
  simpl. apply elem_of_cons in Hin as [->|Hin].
  - eexists. split; [done|]. destruct (ts_max l); simpl; lia.
  - destruct (IH Hin) as (m & -> & Hm). eexists. split; [done|]. simpl. lia.
Qed.

(** The date range the picker starts with keeps every row that has a
    timestamp, and only those: the first call of the callback sees the whole
    frame but for the rows without a date. *)
Theorem initial_spec_rows (today : Z) (df : list TransactionRecord) :
  filter_rows (initial_spec today df) df
  = filter (λ r, is_Some (Date_Transaction r)) df.
Proof.
  rewrite filter_rows_passes. apply filter_ext_in. intros r Hr.
  unfold passes, initial_spec; simpl. unfold ts_ge, ts_le.
  destruct (Date_Transaction r) as [t|] eqn:Ht.
  - assert (t ∈ omap Date_Transaction df) as Hin
      by (apply list_elem_of_omap; eauto).
    destruct (ts_min_le _ _ Hin) as (m & Hmin & Hm).
    destruct (ts_max_ge _ _ Hin) as (M & Hmax & HM).
    unfold min_date, max_date. rewrite Hmin, Hmax.
    unfold date, to_datetime, Timedelta_1day.
    pose proof (Z.mul_div_le m (86400 * 1000000000)).
    pose proof (Z.mul_succ_div_gt M (86400 * 1000000000)).
    split; [by eexists|]. intros _. split_and!; try done; lia.
  - split; [tauto|]. by intros [t [=]].
Qed.

End LayoutMore.

(** ** The views of a filtered frame *)

Module SelectionMore.
Import Filter FilterFacts Pandas PandasFacts SortFacts Agg GroupMore.

(** When stores are selected, the store table and the two store charts of
    the callback mention selected stores only, and the callback counts at
    most the rows of the frame. *)
Theorem views_within_stores (s : FilterSpec) (df : DataFrame)
    (v : string) (vs : list string) :
  stores s = Some (v :: vs) →
  let b := update_all s df in
  Forall (λ row, sr_Magasin row ∈ v :: vs) (store_table_data b)
  ∧ Forall (λ kv, kv.1 ∈ v :: vs) (sales_store b)
  ∧ Forall (λ kv, kv.1 ∈ v :: vs) (avg_store b)
  ∧ nb_transactions b ≤ len (rows df).
Proof.
  intros Hst b.
  assert (∀ m, m ∈ Magasin <$> rows (apply_filter s df) → m ∈ v :: vs)
    as Hsel.
  { intros m (r & -> & Hr)%list_elem_of_fmap. simpl in Hr.
    apply filter_rows_elem in Hr as (_ & _ & _ & Hin & _).
    by rewrite Hst in Hin. }
  split_and!.
  - apply Forall_forall. intros row Hrow. apply Hsel.
    apply (store_table_keys (apply_filter s df)).
    by apply list_elem_of_fmap_2.
  - apply Forall_forall. intros kv Hkv. apply Hsel.
    apply (sorted_view_keys (apply_filter s df)).
    by apply list_elem_of_fmap_2.
  - apply Forall_forall. intros kv Hkv. apply Hsel.
    unfold b, update_all, aggregate in Hkv. cbn [avg_store] in Hkv.
    rewrite sort_values_desc_perm in Hkv.
    apply (list_elem_of_fmap_2 fst) in Hkv. rewrite agg_keys in Hkv.
    by apply elem_of_sorted_keys.
  - unfold b, update_all, aggregate, len; cbn [nb_transactions].
    pose proof (sublist_length _ _
      (proj1 (FilterMore.apply_filter_sublist s df))). lia.
Qed.

Lemma views_within_stores_witness :
  Forall (λ row, sr_Magasin row ∈ ["storeA"])
    (store_table_data (update_all (only_stores ["storeA"]) Examples.scenario)).
Proof.
  apply (views_within_stores (only_stores ["storeA"]) Examples.scenario
           "storeA" []).
  reflexivity.
Defined.

End SelectionMore.

(** ** Start-up and conversions *)

Module LoaderMore.
Import Loader LoaderFacts.

(** The script reaches the conversions exactly when the sheet has all eight
    required columns; further columns do no harm. *)
Theorem startup_ok_iff (columns : list string) :
  startup (Some columns) = ColumnsOk ↔ ∀ c, c ∈ expected_cols → c ∈ columns.
Proof.
  unfold startup. split.
  - case_decide as Hts; [|done].
    unfold check_columns. case_decide as Hm; [|done].
    intros _ c Hc. destruct (decide (c ∈ columns)) as [|Hn]; [done|].
    assert (c ∈ missing_cols columns) as Hin
      by (by apply elem_of_missing_cols).
    rewrite Hm in Hin. by apply elem_of_empty in Hin.
  - intros Hall. rewrite decide_True.
    + by rewrite check_columns_complete.
    + apply Hall. unfold expected_cols. set_solver.
Qed.

Section CleanMore.
Variable floatify : string → option Float.
Variable str_of_num : Q → string.

Lemma clean_int_Ok_or_infinite c :
  (∃ z, clean_int floatify c = Ok z) ∨ reads_infinite floatify c.
Proof.
  unfold clean_int, reads_infinite.
  destruct (to_numeric_coerce floatify c) as [[x|neg]|]; simpl; eauto.
Qed.

Lemma clean_row_raises r e :
  clean_row floatify str_of_num r = Raise e ↔
  reads_infinite floatify (raw_Quantite r) ∨ reads_infinite floatify (raw_Satisfaction_Client r).
Proof.
  unfold clean_row.
  destruct (clean_int_Ok_or_infinite (raw_Quantite r)) as [[q Hq]|Hq],
    (clean_int_Ok_or_infinite (raw_Satisfaction_Client r)) as [[z Hz]|Hz].
  - rewrite Hq, Hz. simpl. split; [done|].
    intros [Hi|Hi]; apply clean_int_raises in Hi; congruence.
  - apply clean_int_raises in Hz as Hz'. rewrite Hq, Hz'. simpl.
    destruct e. tauto.
  - apply clean_int_raises in Hq as Hq'. rewrite Hq'. simpl.
    destruct e. tauto.
  - apply clean_int_raises in Hq as Hq'. rewrite Hq'. simpl.
    destruct e. tauto.
Qed.

(** The conversions raise exactly when some quantity or satisfaction cell
    reads as an infinity; otherwise they return one clean row per row of the
    sheet. *)
Theorem clean_raises_iff (df : list RawRow) :
  (clean floatify str_of_num df = Raise IntCastingNaNError ↔
     Exists (λ r, reads_infinite floatify (raw_Quantite r)
                  ∨ reads_infinite floatify (raw_Satisfaction_Client r)) df)
  ∧ (Forall (λ r, ¬ reads_infinite floatify (raw_Quantite r)
                  ∧ ¬ reads_infinite floatify (raw_Satisfaction_Client r)) df →
     ∃ df', clean floatify str_of_num df = Ok df'
            ∧ length df' = length df).
Proof.
  assert (clean floatify str_of_num df = Raise IntCastingNaNError ↔
          Exists (λ r, reads_infinite floatify (raw_Quantite r)
                       ∨ reads_infinite floatify (raw_Satisfaction_Client r)) df)
    as Hiff.
  { induction df as [|r df IH]; simpl.
    - split; [done|]. by intros ?%Exists_nil.
    - rewrite Exists_cons, <- IH, <- (clean_row_raises r IntCastingNaNError).
      fold (clean floatify str_of_num df).
      destruct (clean_row floatify str_of_num r) as [cr|[]]; simpl.
      + destruct (clean floatify str_of_num df) as [crs|[]]; simpl;
          split; try done; [by intros [|]|by right].
      + split; [by left|done]. }
  split; [done|]. intros Hall.
  destruct (clean floatify str_of_num df) as [df'|[]] eqn:Hc.
  - exists df'. split; [done|]. by apply (clean_length floatify str_of_num).
  - pose proof (proj1 Hiff eq_refl) as Hex.
    apply Exists_exists in Hex as (r & Hr & Hinf).
    rewrite Forall_forall in Hall. destruct (Hall _ Hr). tauto.
Qed.


End CleanMore.

Lemma clean_raises_iff_witness :
  ∃ df', clean floatify_small (λ _, "")
           [mkRaw (CStr "c1") (CNum 10) (CStr "storeA") (CStr "catX")
                  (CNum (27 # 10)) (CStr "Carte") CNaN]
         = Ok df' ∧ length df' = 1%nat.
Proof.
  apply clean_raises_iff. repeat constructor; by intros [neg [=]].
Defined.

Local Open Scope Q_scope.


End LoaderMore.
